(** * Health-metrics engine of the BMI dashboard (app.py)

    A shallow embedding of the computation and persistence logic of
    [app.py]: the BMI formula, the classification thresholds, the calorie
    functions, the save and delete handlers over the [bmi_history] table and
    the ordered reads of the dashboard.

    Numbers.  The program computes on Python floats.  They are embedded as
    exact rationals ([Q]), compared with [==]; division is the one
    arithmetic operation of the program that can raise, and it returns a
    [result].

    Text.  Python [str] values are embedded as [string]; the Korean labels
    of the program are kept as they are written in the source. *)

From Stdlib Require Import QArith Qround ZArith Lia Lqa String Ascii.
From stdpp Require Import gmap strings list sorting.

Local Open Scope string_scope.
Local Open Scope list_scope.
Local Open Scope Q_scope.

(** ** Python results and exceptions *)

Inductive py_error : Type :=
  | ZeroDivisionError
  | KeyError (key : string).

Inductive result (A : Type) : Type :=
  | Ok (a : A)
  | Raise (e : py_error).

Arguments Ok {A} a.
Arguments Raise {A} e.

#[global] Instance result_ret : MRet result := fun A a => Ok a.

#[global] Instance result_bind : MBind result := fun A B k r =>
  match r with
  | Ok a => k a
  | Raise e => Raise e
  end.

(** [a / b] on floats: raises [ZeroDivisionError] on a zero divisor. *)
Definition py_div (a b : Q) : result Q :=
  if Qeq_bool b 0 then Raise ZeroDivisionError else Ok (a / b).

(** [a > b] and [a < b], as booleans. *)
Definition Qgt_bool (a b : Q) : bool := negb (Qle_bool a b).
Definition Qlt_bool (a b : Q) : bool := negb (Qle_bool b a).

(** Nearest integer, a tie going to the even neighbour. *)
Definition round_half_even (q : Q) : Z :=
  let f := Qfloor q in
  let r := q - inject_Z f in
  if Qlt_bool r (1 # 2) then f
  else if Qgt_bool r (1 # 2) then (f + 1)%Z
  else if Z.even f then f else (f + 1)%Z.

(** [round(x, ndigits)] for [ndigits >= 0]. *)
Definition py_round (x : Q) (ndigits : nat) : Q :=
  let scale := (10 ^ Z.of_nat ndigits)%Z in
  inject_Z (round_half_even (x * inject_Z scale)) / inject_Z scale.

(** ** The functions of app.py *)

(** [def bmi_calc(height, weight): return weight / ((height / 100) ** 2)] *)
Definition bmi_calc (height weight : Q) : result Q :=
  h ← py_div height 100;
  py_div weight (h ^ 2).

(** [def bmi_status(bmi)]: the chain of [>=] tests, top down. *)
Definition bmi_status (bmi : Q) : string :=
  if Qle_bool 35 bmi then "고도 비만"
  else if Qle_bool 30 bmi then "2단계 비만"
  else if Qle_bool 25 bmi then "1단계 비만"
  else if Qle_bool 23 bmi then "과체중"
  else if Qle_bool 18.5 bmi then "정상"
  else "저체중".

(** [def calc_bmr(weight, height, age, gender)] *)
Definition calc_bmr (weight height age : Q) (gender : string) : Q :=
  if String.eqb gender "남성"
  then 10 * weight + 6.25 * height - 5 * age + 5
  else 10 * weight + 6.25 * height - 5 * age - 161.

(** The dict literal of [calc_tdee]. *)
Definition activity_map : gmap string Q :=
  {[ "거의 없음" := 1.2;
     "가벼움 (주1~3회)" := 1.375;
     "보통 (주3~5회)" := 1.55;
     "높음 (주6~7회)" := 1.725 ]}.

(** [def calc_tdee(bmr, activity): return bmr * activity_map[activity]];
    the subscript raises [KeyError] on a key that is not in the dict. *)
Definition calc_tdee (bmr : Q) (activity : string) : result Q :=
  match activity_map !! activity with
  | Some factor => Ok (bmr * factor)
  | None => Raise (KeyError activity)
  end.

(** [def calorie_plan(tdee, bmi, target_bmi)] *)
Definition calorie_plan (tdee bmi target_bmi : Q) : Q * string :=
  if Qgt_bool bmi (target_bmi + 1) then (tdee - 500, "감량")
  else if Qlt_bool bmi (target_bmi - 1) then (tdee + 300, "증량")
  else (tdee, "유지").

(** ** The [bmi_history] table *)

(** One row of [bmi_history], column by column. *)
Record row : Type := Row {
  row_id : Z;
  row_name : string;
  row_date : string;
  row_height : Q;
  row_weight : Q;
  row_bmi : Q;
  row_status : string
}.

(** The database: the rows in rowid order, and the counter that
    [AUTOINCREMENT] keeps in [sqlite_sequence] (the largest id handed out). *)
Record db : Type := Db {
  bmi_history : list row;
  sqlite_sequence : Z
}.

Definition max_rowid (rows : list row) : Z :=
  foldr (fun r m => Z.max (row_id r) m) 0%Z rows.

(** [INSERT INTO bmi_history (name, date, height, weight, bmi, status)
    VALUES (?, ?, ?, ?, ?, ?)]: the id is one more than the largest id the
    table has ever held. *)
Definition insert_row (d : db) (name date : string) (height weight bmi : Q)
    (status : string) : db :=
  let i := (Z.max (sqlite_sequence d) (max_rowid (bmi_history d)) + 1)%Z in
  {| bmi_history := bmi_history d ++ [Row i name date height weight bmi status];
     sqlite_sequence := i |}.

(** [DELETE FROM bmi_history WHERE id IN (?, ..., ?)] *)
Definition delete_where_id_in (ids : list Z) (d : db) : db :=
  {| bmi_history := filter (fun r => row_id r ∉ ids) (bmi_history d);
     sqlite_sequence := sqlite_sequence d |}.

(** ** Timestamps *)

(** The fields of [datetime.now()] that matter here. *)
Record datetime : Type := Datetime {
  year : Z;
  month : Z;
  day : Z;
  hour : Z;
  minute : Z;
  second : Z
}.

Definition digit (d : Z) : ascii := ascii_of_N (Z.to_N (48 + d)).

Definition pad2 (n : Z) : string :=
  String (digit (n / 10)) (String (digit (n mod 10)) "").

Definition pad4 (n : Z) : string := pad2 (n / 100) +:+ pad2 (n mod 100).

(** [now.strftime("%Y-%m-%d %H:%M")]: the seconds are dropped. *)
Definition strftime (t : datetime) : string :=
  pad4 (year t) +:+ "-" +:+ pad2 (month t) +:+ "-" +:+ pad2 (day t) +:+ " "
    +:+ pad2 (hour t) +:+ ":" +:+ pad2 (minute t).

(** ** The save handler (sidebar) *)

Inductive sidebar_msg : Type :=
  | sidebar_error (text : string)
  | sidebar_success (bmi : Q).

(** The body of [if st.sidebar.button("➕ BMI 기록 저장"):], run on the
    submitted [name], [height] and [weight] at time [now]. *)
Definition on_save_click (name : string) (height weight : Q) (now : datetime)
    (d : db) : result (db * sidebar_msg) :=
  if String.eqb name "" then
    mret (d, sidebar_error "이름을 입력하세요.")
  else if Qle_bool height 0 then
    mret (d, sidebar_error "키는 0보다 커야 합니다.")
  else
    bmi ← bmi_calc height weight;
    let status := bmi_status bmi in
    mret (insert_row d name (strftime now) height weight (py_round bmi 2) status,
          sidebar_success bmi).

(** ** Ordered reads *)

(** Order of two texts, as [ORDER BY] and [sort_values] compare them. *)
Definition text_le (s1 s2 : string) : Prop := String.leb s1 s2 = true.

(** Order of two rows by the [date] column. *)
Definition date_le (r1 r2 : row) : Prop :=
  text_le (row_date r1) (row_date r2).

#[global] Instance date_le_dec : RelDecision date_le.
Proof. intros r1 r2. unfold date_le, text_le. apply _. Defined.

(** What [ORDER BY date] and [sort_values("date")] promise of their result:
    the same rows, in ascending order of [date].  Neither promises an order
    among rows of equal [date]. *)
Definition sorts_by_date (rows out : list row) : Prop :=
  out ≡ₚ rows ∧ Sorted date_le out.

(** One sort that computes. *)
Definition sort_by_date (rows : list row) : list row :=
  merge_sort date_le rows.

(** [pd.read_sql("SELECT * FROM bmi_history ORDER BY date", conn)] *)
Definition load_data (d : db) : list row := sort_by_date (bmi_history d).

Definition load_data_returns (d : db) (df : list row) : Prop :=
  sorts_by_date (bmi_history d) df.

(** [df[df["name"] == selected_name].sort_values("date")] *)
Definition user_df (df : list row) (selected_name : string) : list row :=
  sort_by_date (filter (fun r => row_name r = selected_name) df).

Definition user_df_returns (df : list row) (selected_name : string)
    (u : list row) : Prop :=
  sorts_by_date (filter (fun r => row_name r = selected_name) df) u.

(** [latest = user_df.iloc[-1]], on a non-empty frame. *)
Definition latest (u : list row) : option row := last u.

(** [prev = user_df.iloc[-2] if len(user_df) > 1 else None] *)
Definition prev (u : list row) : option row :=
  if decide (1 < length u)%nat then u !! (length u - 2)%nat else None.

(** ** The delete handler *)

(** [if delete_ids: if st.button("🗑 선택 기록 삭제"): ...] *)
Definition on_delete (delete_ids : list Z) (clicked : bool) (d : db)
    : db * option string :=
  match delete_ids with
  | [] => (d, None)
  | _ :: _ =>
      if clicked then (delete_where_id_in delete_ids d, Some "삭제 완료")
      else (d, None)
  end.

(** ** Recommendations and comments *)





(** The options of the activity select box. *)
Definition activity_options : list string :=
  ["거의 없음"; "가벼움 (주1~3회)"; "보통 (주3~5회)"; "높음 (주6~7회)"].

(** The calorie analysis of the page:
    [bmr = calc_bmr(latest["weight"], latest["height"], age, gender)],
    [tdee = calc_tdee(bmr, activity)] and
    [recommended_cal, plan_type = calorie_plan(tdee, latest["bmi"], target_bmi)]. *)
Definition calorie_analysis (latest_row : row) (age : Q) (gender activity : string)
    (target_bmi : Q) : result (Q * Q * Q * string) :=
  let bmr := calc_bmr (row_weight latest_row) (row_height latest_row) age gender in
  tdee ← calc_tdee bmr activity;
  let (recommended_cal, plan_type) :=
    calorie_plan tdee (row_bmi latest_row) target_bmi in
  mret (bmr, tdee, recommended_cal, plan_type).

(** ** The user selector, the indicators and the delete list *)

#[global] Instance text_le_dec : RelDecision text_le.
Proof. intros s1 s2. unfold text_le. apply _. Defined.

(** [sorted(df["name"].unique())] *)
Definition name_options (df : list row) : list string :=
  merge_sort text_le (remove_dups (row_name <$> df)).

(** The larger and the smaller of two numbers. *)
Definition np_maximum (a b : Q) : Q := if Qle_bool a b then b else a.
Definition np_minimum (a b : Q) : Q := if Qle_bool a b then a else b.

(** [user_df["bmi"].max()] and [user_df["bmi"].min()], on a frame that
    has a row. *)
Definition bmi_max (u : list row) : option Q :=
  match u with
  | [] => None
  | r :: u' => Some (foldl (fun m r' => np_maximum m (row_bmi r')) (row_bmi r) u')
  end.

Definition bmi_min (u : list row) : option Q :=
  match u with
  | [] => None
  | r :: u' => Some (foldl (fun m r' => np_minimum m (row_bmi r')) (row_bmi r) u')
  end.

(** The loop over [user_df.iterrows()]: the ids of the rows whose check
    box, keyed by the id, is ticked. *)
Definition delete_ids (u : list row) (checked : Z -> bool) : list Z :=
  row_id <$> filter (fun r => checked (row_id r) = true) u.

(** ** Runs of the page *)

(** What the user can do to the table in one run. *)
Inductive action : Type :=
  | save_click (name : string) (height weight : Q) (now : datetime)
  | delete_click (ids : list Z).

(** One run: an exception ends the run before anything is written. *)
Definition run_action (a : action) (d : db) : db :=
  match a with
  | save_click name height weight now =>
      match on_save_click name height weight now d with
      | Ok (d', _) => d'
      | Raise _ => d
      end
  | delete_click ids => (on_delete ids true d).1
  end.

Definition run_actions (actions : list action) (d : db) : db :=
  foldl (fun d a => run_action a d) d actions.

(** The ids of the table are distinct, positive and at most the counter. *)
Definition db_ok (d : db) : Prop :=
  NoDup (row_id <$> bmi_history d) /\
  (0 <= sqlite_sequence d)%Z /\
  Forall (fun r => (0 < row_id r <= sqlite_sequence d)%Z) (bmi_history d).

(** ** The forecast of fire.py *)

(** [future_years = np.array(range(2020, 2025))] *)
Definition future_years : list Q := [2020; 2021; 2022; 2023; 2024].

(** [future_preds = np.maximum(0, slope * future_years + intercept)], for
    the [slope] and [intercept] that [np.polyfit] returned. *)
Definition future_preds (slope intercept : Q) : list Q :=
  (fun y => np_maximum 0 (slope * y + intercept)) <$> future_years.

(** ** The names the specification uses *)

(** The specification names the labels in English; the program writes them
    in Korean.  These tables give the correspondence. *)

Inductive band : Type :=
  | severely_obese | stage2_obese | stage1_obese
  | overweight | normal | underweight.

Definition status_label (b : band) : string :=
  match b with
  | severely_obese => "고도 비만"
  | stage2_obese => "2단계 비만"
  | stage1_obese => "1단계 비만"
  | overweight => "과체중"
  | normal => "정상"
  | underweight => "저체중"
  end.

(** The bands as the specification words them: closed below, open above. *)
Definition in_band (b : band) (bmi : Q) : Prop :=
  match b with
  | severely_obese => 35 <= bmi
  | stage2_obese => 30 <= bmi /\ bmi < 35
  | stage1_obese => 25 <= bmi /\ bmi < 30
  | overweight => 23 <= bmi /\ bmi < 25
  | normal => 18.5 <= bmi /\ bmi < 23
  | underweight => bmi < 18.5
  end.



Inductive activity_level : Type := sedentary | light | moderate | high.

Definition activity_key (a : activity_level) : string :=
  match a with
  | sedentary => "거의 없음"
  | light => "가벼움 (주1~3회)"
  | moderate => "보통 (주3~5회)"
  | high => "높음 (주6~7회)"
  end.

Definition activity_factor (a : activity_level) : Q :=
  match a with
  | sedentary => 1.2
  | light => 1.375
  | moderate => 1.55
  | high => 1.725
  end.

(** The place of a band on the scale. *)
Definition band_rank (b : band) : nat :=
  match b with
  | underweight => 0
  | normal => 1
  | overweight => 2
  | stage1_obese => 3
  | stage2_obese => 4
  | severely_obese => 5
  end.

(** ** Chronological order *)

(** Lexicographic combination of two comparisons. *)
Definition lex (c1 c2 : comparison) : comparison :=
  match c1 with
  | Eq => c2
  | _ => c1
  end.

(** Order of two instants down to the minute, and down to the second. *)
Definition minute_compare (t1 t2 : datetime) : comparison :=
  lex (year t1 ?= year t2)%Z
    (lex (month t1 ?= month t2)%Z
       (lex (day t1 ?= day t2)%Z
          (lex (hour t1 ?= hour t2)%Z (minute t1 ?= minute t2)%Z))).


(** The instants [datetime.now()] can return, with a year of four digits. *)
Definition valid_datetime (t : datetime) : Prop :=
  (1000 <= year t <= 9999)%Z /\ (1 <= month t <= 12)%Z /\
  (1 <= day t <= 31)%Z /\ (0 <= hour t <= 23)%Z /\
  (0 <= minute t <= 59)%Z /\ (0 <= second t <= 59)%Z.

(** * Properties *)

(** ** Sample runs *)

Example bmi_calc_170_70 : bmi_calc 170 70 = Ok (700000 # 28900).
Proof. reflexivity. Qed.

Example bmi_calc_zero_height : bmi_calc 0 70 = Raise ZeroDivisionError.
Proof. reflexivity. Qed.

Example py_round_tie_down : py_round 0.125 2 = 0.12.
Proof. reflexivity. Qed.

Example py_round_tie_up : py_round 0.135 2 = 0.14.
Proof. reflexivity. Qed.

Example strftime_pads :
  strftime (Datetime 2024 3 5 9 7 30) = "2024-03-05 09:07".
Proof. reflexivity. Qed.

(** Two saves of one name, four weeks apart: the rows
    stored, and the latest and previous rows of the name. *)
Example two_saves :
  (r1 ← on_save_click "kim" 170 70 (Datetime 2024 3 5 9 7 30) (Db [] 0);
   r2 ← on_save_click "kim" 170 60 (Datetime 2024 4 1 8 0 0) r1.1;
   mret (bmi_history r2.1,
         latest (user_df (load_data r2.1) "kim"),
         prev (user_df (load_data r2.1) "kim")))
  = Ok ([Row 1 "kim" "2024-03-05 09:07" 170 70 24.22 "과체중";
         Row 2 "kim" "2024-04-01 08:00" 170 60 20.76 "정상"],
        Some (Row 2 "kim" "2024-04-01 08:00" 170 60 20.76 "정상"),
        Some (Row 1 "kim" "2024-03-05 09:07" 170 70 24.22 "과체중")).
Proof. reflexivity. Qed.

Example delete_one :
  on_delete [1%Z] true
    (Db [Row 1 "kim" "2024-03-05 09:07" 170 70 24.22 "과체중";
         Row 2 "lee" "2024-04-01 08:00" 170 60 20.76 "정상"] 2)
  = (Db [Row 2 "lee" "2024-04-01 08:00" 170 60 20.76 "정상"] 2,
     Some "삭제 완료").
Proof. reflexivity. Qed.

(** ** Comparisons *)

Lemma Qle_bool_false (a b : Q) : Qle_bool a b = false <-> b < a.
Proof.
  split.
  - intros H. apply Qnot_le_lt. intros Hle.
    apply Qle_bool_iff in Hle. congruence.
  - intros H. destruct (Qle_bool a b) eqn:E; [| reflexivity].
    apply Qle_bool_iff in E. lra.
Qed.

Lemma Qgt_bool_iff (a b : Q) : Qgt_bool a b = true <-> b < a.
Proof.
  unfold Qgt_bool. rewrite negb_true_iff. apply Qle_bool_false.
Qed.

Lemma Qlt_bool_iff (a b : Q) : Qlt_bool a b = true <-> a < b.
Proof.
  unfold Qlt_bool. rewrite negb_true_iff. apply Qle_bool_false.
Qed.

Lemma Qgt_bool_false (a b : Q) : Qgt_bool a b = false <-> a <= b.
Proof.
  unfold Qgt_bool. rewrite negb_false_iff. apply Qle_bool_iff.
Qed.

Lemma Qlt_bool_false (a b : Q) : Qlt_bool a b = false <-> b <= a.
Proof.
  unfold Qlt_bool. rewrite negb_false_iff. apply Qle_bool_iff.
Qed.

(** Turn the outcome of every comparison in sight into an order fact. *)
Ltac order_facts :=
  repeat match goal with
  | H : Qle_bool _ _ = true |- _ => apply Qle_bool_iff in H
  | H : Qle_bool _ _ = false |- _ => apply Qle_bool_false in H
  | H : Qgt_bool _ _ = true |- _ => apply Qgt_bool_iff in H
  | H : Qgt_bool _ _ = false |- _ => apply Qgt_bool_false in H
  | H : Qlt_bool _ _ = true |- _ => apply Qlt_bool_iff in H
  | H : Qlt_bool _ _ = false |- _ => apply Qlt_bool_false in H
  end.

(** ** Classification *)

Lemma status_label_inj (b1 b2 : band) :
  status_label b1 = status_label b2 -> b1 = b2.
Proof. destruct b1, b2; simpl; intros H; try reflexivity; discriminate H. Qed.

Lemma bmi_status_in_band (bmi : Q) (b : band) :
  bmi_status bmi = status_label b <-> in_band b bmi.
Proof.
  unfold bmi_status.
  destruct (Qle_bool 35 bmi) eqn:H35;
    [| destruct (Qle_bool 30 bmi) eqn:H30;
    [| destruct (Qle_bool 25 bmi) eqn:H25;
    [| destruct (Qle_bool 23 bmi) eqn:H23;
    [| destruct (Qle_bool 18.5 bmi) eqn:H18 ]]]];
    order_facts; destruct b; simpl;
    (split; [intros E; try discriminate E; try split; lra
            | intros H; try reflexivity; lra]).
Qed.

(** C4.  [bmi_status] is defined on every bmi and, going down the
    thresholds 35, 30, 25, 23 and 18.5, gives the label of the one band that
    holds the bmi: each band includes its lower bound and excludes its upper
    bound, so no two bands share a value.  In particular 22.9 is "정상"
    (normal), 23.0 is "과체중" (overweight), 34.99 is "2단계 비만" (stage-2
    obese) and 35.0 is "고도 비만" (severely obese). *)
Theorem bmi_status_bands (bmi : Q) :
  (35 <= bmi -> bmi_status bmi = "고도 비만") /\
  (30 <= bmi /\ bmi < 35 -> bmi_status bmi = "2단계 비만") /\
  (25 <= bmi /\ bmi < 30 -> bmi_status bmi = "1단계 비만") /\
  (23 <= bmi /\ bmi < 25 -> bmi_status bmi = "과체중") /\
  (18.5 <= bmi /\ bmi < 23 -> bmi_status bmi = "정상") /\
  (bmi < 18.5 -> bmi_status bmi = "저체중") /\
  (exists b : band, in_band b bmi /\ bmi_status bmi = status_label b) /\
  (forall b1 b2 : band, in_band b1 bmi -> in_band b2 bmi -> b1 = b2) /\
  bmi_status 22.9 = "정상" /\
  bmi_status 23.0 = "과체중" /\
  bmi_status 34.99 = "2단계 비만" /\
  bmi_status 35.0 = "고도 비만".
Proof.
  repeat apply conj.
  - intros H. now apply (bmi_status_in_band bmi severely_obese).
  - intros H. now apply (bmi_status_in_band bmi stage2_obese).
  - intros H. now apply (bmi_status_in_band bmi stage1_obese).
  - intros H. now apply (bmi_status_in_band bmi overweight).
  - intros H. now apply (bmi_status_in_band bmi normal).
  - intros H. now apply (bmi_status_in_band bmi underweight).
  - destruct (Qlt_le_dec bmi 18.5); [exists underweight |
      destruct (Qlt_le_dec bmi 23); [exists normal |
      destruct (Qlt_le_dec bmi 25); [exists overweight |
      destruct (Qlt_le_dec bmi 30); [exists stage1_obese |
      destruct (Qlt_le_dec bmi 35); [exists stage2_obese |
      exists severely_obese]]]]];
    (split; [| apply bmi_status_in_band]); simpl; auto.
  - intros b1 b2 H1 H2. apply status_label_inj.
    apply bmi_status_in_band in H1, H2. congruence.
  - reflexivity.
  - reflexivity.
  - reflexivity.
  - reflexivity.
Qed.

(** The bands of C4 at the bmi 24.22. *)
Lemma bmi_status_bands_witness : bmi_status 24.22 = "과체중".
Proof.
  destruct (bmi_status_bands 24.22) as (_ & _ & _ & H & _).
  apply H. split; [apply Qle_bool_iff | apply Qlt_bool_iff]; reflexivity.
Defined.

(** ** Calorie plan *)



(** ** Activity factors *)

Lemma activity_map_None (activity : string) :
  activity_map !! activity = None <-> forall a, activity <> activity_key a.
Proof.
  unfold activity_map.
  rewrite !lookup_insert_None, lookup_singleton_None. split.
  - intros [[[H4 H3] H2] H1] a E. destruct a; simpl in E; congruence.
  - intros H. repeat split; intros E; symmetry in E;
      first [ exact (H sedentary E) | exact (H light E)
            | exact (H moderate E) | exact (H high E) ].
Qed.

(** C5.  [calc_tdee] multiplies the bmr by 1.2 for "거의 없음" (sedentary),
    1.375 for "가벼움 (주1~3회)" (light), 1.55 for "보통 (주3~5회)" (moderate)
    and 1.725 for "높음 (주6~7회)" (high); it fails, with the [KeyError] of
    the lookup, exactly when the activity is none of these four keys. *)
Theorem calc_tdee_table (bmr : Q) (activity : string) :
  calc_tdee bmr "거의 없음" = Ok (bmr * 1.2) /\
  calc_tdee bmr "가벼움 (주1~3회)" = Ok (bmr * 1.375) /\
  calc_tdee bmr "보통 (주3~5회)" = Ok (bmr * 1.55) /\
  calc_tdee bmr "높음 (주6~7회)" = Ok (bmr * 1.725) /\
  (forall a, calc_tdee bmr (activity_key a) = Ok (bmr * activity_factor a)) /\
  ((exists e, calc_tdee bmr activity = Raise e) <->
     ~ (exists a, activity = activity_key a)) /\
  ((exists e, calc_tdee bmr activity = Raise e) ->
     calc_tdee bmr activity = Raise (KeyError activity)).
Proof.
  repeat apply conj; try reflexivity.
  - intros []; reflexivity.
  - unfold calc_tdee.
    destruct (activity_map !! activity) as [f|] eqn:E.
    + intros [e He]. discriminate He.
    + intros _ [a Ha]. exact (proj1 (activity_map_None activity) E a Ha).
  - intros Hno. unfold calc_tdee.
    destruct (activity_map !! activity) as [f|] eqn:E; [| eauto].
    assert (activity_map !! activity = None) as E'; [| congruence].
    apply activity_map_None. intros a Ha. apply Hno. eauto.
  - unfold calc_tdee. intros [e He].
    destruct (activity_map !! activity); [discriminate He | reflexivity].
Qed.

(** C5 at an activity that is not a key of the table. *)
Lemma calc_tdee_table_witness :
  calc_tdee 1500 "sedentary" = Raise (KeyError "sedentary").
Proof.
  destruct (calc_tdee_table 1500 "sedentary") as (_ & _ & _ & _ & _ & _ & H).
  apply H. exists (KeyError "sedentary"). reflexivity.
Defined.

(** ** The BMI formula *)

Lemma square_zero (h : Q) : (h / 100) ^ 2 == 0 <-> h == 0.
Proof.
  simpl. split; intros H.
  - assert (h / 100 == 0) as H0.
    { destruct (Qmult_integral _ _ H); assumption. }
    assert (h == (h / 100) * 100) as -> by (field; discriminate).
    rewrite H0. reflexivity.
  - rewrite H. reflexivity.
Qed.

Lemma bmi_calc_unfold (height weight : Q) :
  bmi_calc height weight =
    if Qeq_bool height 0 then Raise ZeroDivisionError
    else Ok (weight / (height / 100) ^ 2).
Proof.
  unfold bmi_calc, py_div. simpl.
  destruct (Qeq_bool height 0) eqn:E.
  - apply Qeq_bool_iff in E. apply square_zero in E.
    apply Qeq_bool_iff in E. simpl in E. now rewrite E.
  - destruct (Qeq_bool (height / 100 * (height / 100)) 0) eqn:E'; [| reflexivity].
    apply Qeq_bool_iff in E'. apply (square_zero height) in E'.
    apply Qeq_bool_iff in E'. congruence.
Qed.




(** ** Order of texts *)

Lemma string_leb_trans (s1 s2 s3 : string) :
  String.leb s1 s2 = true -> String.leb s2 s3 = true ->
  String.leb s1 s3 = true.
Proof.
  unfold String.leb. revert s2 s3.
  induction s1 as [|a s1 IH]; intros [|b s2] [|c s3]; simpl;
    try congruence; try reflexivity.
  unfold Ascii.compare.
  destruct (N.compare_spec (N_of_ascii a) (N_of_ascii b)) as [Hab|Hab|Hab],
    (N.compare_spec (N_of_ascii b) (N_of_ascii c)) as [Hbc|Hbc|Hbc],
    (N.compare_spec (N_of_ascii a) (N_of_ascii c)) as [Hac|Hac|Hac];
    try lia; try congruence; try reflexivity.
  apply IH.
Qed.

#[global] Instance date_le_total : Total date_le.
Proof. intros r1 r2. apply String.leb_total. Qed.

#[global] Instance date_le_trans : Transitive date_le.
Proof. intros r1 r2 r3. apply string_leb_trans. Qed.

Lemma compare_app (a b s t : string) :
  String.length a = String.length b ->
  String.compare (a +:+ s) (b +:+ t)
    = lex (String.compare a b) (String.compare s t).
Proof.
  revert b. induction a as [|x a IH]; intros [|y b]; simpl; try discriminate.
  - reflexivity.
  - intros H. destruct (Ascii.compare x y); try reflexivity.
    apply IH. congruence.
Qed.

Lemma lex_Eq (c : comparison) : lex Eq c = c.
Proof. reflexivity. Qed.

Lemma compare_refl (s : string) : String.compare s s = Eq.
Proof.
  induction s as [|a s IH]; simpl; [reflexivity |].
  unfold Ascii.compare. now rewrite N.compare_refl.
Qed.

Lemma digit_compare (d e : Z) :
  (0 <= d < 10)%Z -> (0 <= e < 10)%Z ->
  Ascii.compare (digit d) (digit e) = (d ?= e)%Z.
Proof.
  intros Hd He. unfold Ascii.compare, digit.
  rewrite !N_ascii_embedding by lia.
  rewrite Z2N.inj_compare by lia.
  apply Z.add_compare_mono_l.
Qed.

Lemma lex_divmod_10 (n m : Z) :
  lex (n / 10 ?= m / 10)%Z (n mod 10 ?= m mod 10)%Z = (n ?= m)%Z.
Proof.
  unfold lex.
  destruct (Z.compare_spec (n / 10) (m / 10)),
    (Z.compare_spec (n mod 10) (m mod 10)), (Z.compare_spec n m);
    try reflexivity; exfalso; Z.div_mod_to_equations; lia.
Qed.

Lemma lex_divmod_100 (n m : Z) :
  lex (n / 100 ?= m / 100)%Z (n mod 100 ?= m mod 100)%Z = (n ?= m)%Z.
Proof.
  unfold lex.
  destruct (Z.compare_spec (n / 100) (m / 100)),
    (Z.compare_spec (n mod 100) (m mod 100)), (Z.compare_spec n m);
    try reflexivity; exfalso; Z.div_mod_to_equations; lia.
Qed.

Lemma pad2_compare (n m : Z) :
  (0 <= n < 100)%Z -> (0 <= m < 100)%Z ->
  String.compare (pad2 n) (pad2 m) = (n ?= m)%Z.
Proof.
  intros Hn Hm. unfold pad2. simpl.
  rewrite !digit_compare by (Z.div_mod_to_equations; lia).
  rewrite <- (lex_divmod_10 n m). unfold lex.
  destruct (n / 10 ?= m / 10)%Z; try reflexivity.
  destruct (n mod 10 ?= m mod 10)%Z; reflexivity.
Qed.

Lemma pad4_compare (n m : Z) :
  (0 <= n < 10000)%Z -> (0 <= m < 10000)%Z ->
  String.compare (pad4 n) (pad4 m) = (n ?= m)%Z.
Proof.
  intros Hn Hm. unfold pad4.
  rewrite compare_app by reflexivity.
  rewrite !pad2_compare by (Z.div_mod_to_equations; lia).
  apply lex_divmod_100.
Qed.

Lemma strftime_compare (t1 t2 : datetime) :
  valid_datetime t1 -> valid_datetime t2 ->
  String.compare (strftime t1) (strftime t2) = minute_compare t1 t2.
Proof.
  intros (Hy1 & Hm1 & Hd1 & Hh1 & Hi1 & _) (Hy2 & Hm2 & Hd2 & Hh2 & Hi2 & _).
  unfold strftime, minute_compare.
  rewrite compare_app by reflexivity. rewrite pad4_compare by lia. f_equal.
  rewrite (compare_app "-" "-"), compare_refl, lex_Eq by reflexivity.
  rewrite compare_app by reflexivity. rewrite pad2_compare by lia. f_equal.
  rewrite (compare_app "-" "-"), compare_refl, lex_Eq by reflexivity.
  rewrite compare_app by reflexivity. rewrite pad2_compare by lia. f_equal.
  rewrite (compare_app " " " "), compare_refl, lex_Eq by reflexivity.
  rewrite compare_app by reflexivity. rewrite pad2_compare by lia. f_equal.
  rewrite (compare_app ":" ":"), compare_refl, lex_Eq by reflexivity.
  apply pad2_compare; lia.
Qed.

(** ** Rounding *)

#[global] Instance round_half_even_comp : Proper (Qeq ==> eq) round_half_even.
Proof.
  intros x y E. unfold round_half_even, Qlt_bool, Qgt_bool.
  rewrite (Qfloor_comp x y E).
  assert (x - inject_Z (Qfloor y) == y - inject_Z (Qfloor y)) as E'
    by (rewrite E; reflexivity).
  now rewrite !E'.
Qed.





(** ** The save handler *)

Lemma on_save_click_accepted (name : string) (height weight : Q)
    (now : datetime) (d : db) :
  name <> "" -> 0 < height ->
  on_save_click name height weight now d =
    Ok (insert_row d name (strftime now) height weight
          (py_round (weight / (height / 100) ^ 2) 2)
          (bmi_status (weight / (height / 100) ^ 2)),
        sidebar_success (weight / (height / 100) ^ 2)).
Proof.
  intros Hname Hpos. unfold on_save_click.
  apply String.eqb_neq in Hname. rewrite Hname.
  apply Qle_bool_false in Hpos. rewrite Hpos.
  rewrite bmi_calc_unfold.
  destruct (Qeq_bool height 0) eqn:E; [| reflexivity].
  apply Qeq_bool_iff in E. apply Qle_bool_false in Hpos. lra.
Qed.

Lemma on_save_click_no_name (height weight : Q) (now : datetime) (d : db) :
  on_save_click "" height weight now d
    = Ok (d, sidebar_error "이름을 입력하세요.").
Proof. reflexivity. Qed.

Lemma on_save_click_no_height (name : string) (height weight : Q)
    (now : datetime) (d : db) :
  name <> "" -> height <= 0 ->
  on_save_click name height weight now d
    = Ok (d, sidebar_error "키는 0보다 커야 합니다.").
Proof.
  intros Hname Hle. unfold on_save_click.
  apply String.eqb_neq in Hname. rewrite Hname.
  apply Qle_bool_iff in Hle. now rewrite Hle.
Qed.






(** ** Ordered reads *)

#[global] Instance text_le_trans : Transitive text_le.
Proof. intros s1 s2 s3. apply string_leb_trans. Qed.

#[global] Instance text_le_antisym : AntiSymm (=) text_le.
Proof. intros s1 s2. apply String.leb_antisym. Qed.

Lemma sort_by_date_sorts (rows : list row) :
  sorts_by_date rows (sort_by_date rows).
Proof.
  split.
  - apply merge_sort_Permutation.
  - apply (Sorted_merge_sort date_le).
Qed.

(** Two sorts of the same rows, whatever the order the rows came in, show
    the same sequence of dates. *)
Lemma sorts_by_date_dates (rows rows' out out' : list row) :
  rows ≡ₚ rows' -> sorts_by_date rows out -> sorts_by_date rows' out' ->
  row_date <$> out = row_date <$> out'.
Proof.
  intros Hp [Hp1 Hs1] [Hp2 Hs2].
  apply (Sorted_unique text_le).
  - apply (Sorted_fmap _ date_le); [auto | exact Hs1].
  - apply (Sorted_fmap _ date_le); [auto | exact Hs2].
  - apply fmap_Permutation. now rewrite Hp1, Hp2.
Qed.

Section reads.

Context (selected_name : string).

Lemma user_df_returns_filter (rows df u : list row) :
  df ≡ₚ rows -> user_df_returns df selected_name u ->
  sorts_by_date (filter (fun r => row_name r = selected_name) rows) u.
Proof.
  intros Hp [Hu Hs]. split; [| exact Hs].
  rewrite Hu. now apply filter_Permutation.
Qed.

(** C7.  [load_data] returns every stored row, in ascending order of
    [date]; the per-name frame [user_df] holds exactly the stored rows of
    the selected name, in ascending order of [date].  Storing the same rows
    in another order changes neither sequence of dates.  The same holds of
    any result that [ORDER BY date] and [sort_values("date")] may give. *)
Theorem reads_are_sorted (d : db) :
  load_data d ≡ₚ bmi_history d /\
  StronglySorted date_le (load_data d) /\
  user_df (load_data d) selected_name
    ≡ₚ filter (fun r => row_name r = selected_name) (bmi_history d) /\
  (forall r, r ∈ user_df (load_data d) selected_name <->
     r ∈ bmi_history d /\ row_name r = selected_name) /\
  StronglySorted date_le (user_df (load_data d) selected_name) /\
  (forall d', bmi_history d' ≡ₚ bmi_history d ->
     row_date <$> load_data d' = row_date <$> load_data d /\
     row_date <$> user_df (load_data d') selected_name
       = row_date <$> user_df (load_data d) selected_name) /\
  (forall df u,
     load_data_returns d df -> user_df_returns df selected_name u ->
     df ≡ₚ bmi_history d /\ StronglySorted date_le df /\
     (forall r, r ∈ u <->
        r ∈ bmi_history d /\ row_name r = selected_name) /\
     StronglySorted date_le u /\
     row_date <$> df = row_date <$> load_data d /\
     row_date <$> u = row_date <$> user_df (load_data d) selected_name).
Proof.
  pose proof (sort_by_date_sorts (bmi_history d)) as Hload.
  assert (forall df u,
    load_data_returns d df -> user_df_returns df selected_name u ->
    df ≡ₚ bmi_history d /\ StronglySorted date_le df /\
    u ≡ₚ filter (fun r => row_name r = selected_name) (bmi_history d) /\
    (forall r, r ∈ u <-> r ∈ bmi_history d /\ row_name r = selected_name) /\
    StronglySorted date_le u) as Hany.
  { intros df u [Hp Hs] Hu.
    destruct (user_df_returns_filter _ _ _ Hp Hu) as [Hpu Hsu].
    split; [exact Hp |]. split; [apply (Sorted_StronglySorted date_le); assumption |].
    split; [exact Hpu |]. split; [| apply (Sorted_StronglySorted date_le); assumption].
    intros r. rewrite Hpu, list_elem_of_filter. tauto. }
  assert (user_df_returns (load_data d) selected_name
            (user_df (load_data d) selected_name)) as Huser
    by apply sort_by_date_sorts.
  destruct (Hany _ _ Hload Huser) as (H1 & H2 & H3 & H4 & H5).
  split; [exact H1 |]. split; [exact H2 |]. split; [exact H3 |].
  split; [exact H4 |]. split; [exact H5 |]. split.
  - intros d' Hd'. split.
    + apply (sorts_by_date_dates (bmi_history d') (bmi_history d));
        [exact Hd' | apply sort_by_date_sorts | exact Hload].
    + apply (sorts_by_date_dates
               (filter (fun r => row_name r = selected_name) (bmi_history d'))
               (filter (fun r => row_name r = selected_name) (bmi_history d))).
      * now apply filter_Permutation.
      * apply (user_df_returns_filter _ (load_data d'));
          [apply sort_by_date_sorts | apply sort_by_date_sorts].
      * apply (user_df_returns_filter _ (load_data d)); [exact H1 | exact Huser].
  - intros df u Hdf Hu.
    destruct (Hany _ _ Hdf Hu) as (G1 & G2 & G3 & G4 & G5).
    split; [exact G1 |]. split; [exact G2 |]. split; [exact G4 |].
    split; [exact G5 |]. split.
    + apply (sorts_by_date_dates (bmi_history d) (bmi_history d));
        [reflexivity | exact Hdf | exact Hload].
    + apply (sorts_by_date_dates
               (filter (fun r => row_name r = selected_name) (bmi_history d))
               (filter (fun r => row_name r = selected_name) (bmi_history d)));
        [reflexivity | |].
      * apply (user_df_returns_filter _ df); [exact G1 | exact Hu].
      * apply (user_df_returns_filter _ (load_data d)); [exact H1 | exact Huser].
Qed.

End reads.

(** C7 at a table whose rows were stored out of date order. *)
Lemma reads_are_sorted_witness :
  row_date <$> load_data
    (Db [Row 2 "kim" "2024-03-05 09:07" 170 70 24.22 "과체중";
         Row 1 "kim" "2023-01-01 01:01" 170 60 20.76 "정상"] 2)
  = row_date <$> load_data
    (Db [Row 1 "kim" "2023-01-01 01:01" 170 60 20.76 "정상";
         Row 2 "kim" "2024-03-05 09:07" 170 70 24.22 "과체중"] 2).
Proof.
  destruct (reads_are_sorted "kim"
    (Db [Row 1 "kim" "2023-01-01 01:01" 170 60 20.76 "정상";
         Row 2 "kim" "2024-03-05 09:07" 170 70 24.22 "과체중"] 2))
    as (_ & _ & _ & _ & _ & H & _).
  apply H. apply perm_swap.
Defined.

(** ** Deletion *)

Lemma filter_all {A : Type} (P : A -> Prop) `{forall x, Decision (P x)}
    (l : list A) :
  (forall x, x ∈ l -> P x) -> filter P l = l.
Proof.
  induction l as [|a l IH]; intros Hall; [reflexivity |].
  rewrite filter_cons_True by (apply Hall; left).
  f_equal. apply IH. intros x Hx. apply Hall. now right.
Qed.

Lemma delete_where_id_in_absent (ids : list Z) (d : db) :
  (forall r, r ∈ bmi_history d -> row_id r ∉ ids) ->
  delete_where_id_in ids d = d.
Proof.
  intros Habs. destruct d as [rows n]. unfold delete_where_id_in. simpl in *.
  f_equal. now apply filter_all.
Qed.

(** C8.  Deleting by id removes the rows whose id is listed and no other
    row, and keeps the order of the rest.  With an empty list, or with ids
    that no row of the table has, the table is left as it was; deleting the
    same ids a second time changes nothing more. *)
Theorem delete_is_idempotent (ids : list Z) (d : db) (clicked : bool) :
  on_delete [] clicked d = (d, None) /\
  delete_where_id_in [] d = d /\
  ((forall r, r ∈ bmi_history d -> row_id r ∉ ids) ->
     delete_where_id_in ids d = d /\ (on_delete ids clicked d).1 = d) /\
  delete_where_id_in ids (delete_where_id_in ids d)
    = delete_where_id_in ids d /\
  (on_delete ids clicked (on_delete ids true d).1).1 = (on_delete ids true d).1 /\
  (forall r, r ∈ bmi_history (on_delete ids true d).1 <->
     r ∈ bmi_history d /\ row_id r ∉ ids) /\
  bmi_history (on_delete ids true d).1 `sublist_of` bmi_history d /\
  (on_delete ids false d).1 = d.
Proof.
  assert (forall r, r ∈ bmi_history (delete_where_id_in ids d) <->
            r ∈ bmi_history d /\ row_id r ∉ ids) as Hin.
  { intros r. unfold delete_where_id_in. simpl.
    rewrite list_elem_of_filter. tauto. }
  assert (delete_where_id_in ids (delete_where_id_in ids d)
            = delete_where_id_in ids d) as Hidem.
  { apply delete_where_id_in_absent. intros r Hr. now apply Hin in Hr. }
  assert (delete_where_id_in [] d = d) as Hnil.
  { apply delete_where_id_in_absent. intros r _. apply not_elem_of_nil. }
  split; [reflexivity |]. split; [exact Hnil |]. split.
  { intros Habs. pose proof (delete_where_id_in_absent ids d Habs) as E.
    split; [exact E |].
    destruct ids as [|i ids]; [reflexivity |]. destruct clicked; simpl; auto. }
  split; [exact Hidem |].
  destruct ids as [|i ids].
  - cbn [on_delete fst]. split; [reflexivity |]. split; [| split; reflexivity].
    intros r. split; [| tauto].
    intros Hr. split; [exact Hr | apply not_elem_of_nil].
  - cbn [on_delete fst]. split; [destruct clicked; simpl; auto |].
    split; [exact Hin |]. split; [| reflexivity].
    unfold delete_where_id_in. simpl. apply sublist_filter.
Qed.

(** C8 at the ids 7 and 9, which the table does not hold. *)
Lemma delete_is_idempotent_witness :
  delete_where_id_in [7; 9]%Z
    (Db [Row 1 "kim" "2024-03-05 09:07" 170 70 24.22 "과체중"] 1)
  = Db [Row 1 "kim" "2024-03-05 09:07" 170 70 24.22 "과체중"] 1.
Proof.
  destruct (delete_is_idempotent [7; 9]%Z
    (Db [Row 1 "kim" "2024-03-05 09:07" 170 70 24.22 "과체중"] 1) true)
    as (_ & _ & H & _).
  apply H. intros r Hr. apply list_elem_of_singleton in Hr. subst r.
  simpl. intros Hin. apply list_elem_of_In in Hin. simpl in Hin.
  destruct Hin as [E|[E|[]]]; discriminate E.
Defined.

(** ** Stored fields *)




(** ** Timestamps as sort keys *)








(** * Further properties of the dashboard *)

(** ** The formulas *)






(** X2.  A larger bmi never gets a lower band from [bmi_status]. *)
Theorem bmi_status_monotone (x y : Q) (bx b_y : band) :
  x <= y ->
  bmi_status x = status_label bx -> bmi_status y = status_label b_y ->
  (band_rank bx <= band_rank b_y)%nat.
Proof.
  intros Hxy Hx Hy.
  apply bmi_status_in_band in Hx. apply bmi_status_in_band in Hy.
  destruct bx, b_y; simpl in *; try lia; exfalso; lra.
Qed.

(** X2 at the bmis 22.9 and 23. *)
Lemma bmi_status_monotone_witness :
  (band_rank normal <= band_rank overweight)%nat.
Proof.
  apply (bmi_status_monotone 22.9 23 normal overweight);
    [apply Qle_bool_iff |..]; reflexivity.
Defined.



(** ** The calorie analysis *)

Lemma activity_options_keys (activity : string) :
  activity ∈ activity_options <-> exists a, activity = activity_key a.
Proof.
  unfold activity_options. rewrite !elem_of_cons, elem_of_nil. split.
  - intros [->|[->|[->|[->|[]]]]];
      [exists sedentary | exists light | exists moderate | exists high];
      reflexivity.
  - intros [[] ->]; simpl; tauto.
Qed.

Lemma calorie_plan_range (tdee bmi target_bmi : Q) :
  tdee - 500 <= (calorie_plan tdee bmi target_bmi).1 <= tdee + 300 /\
  (calorie_plan tdee bmi target_bmi).2 ∈ ["감량"; "유지"; "증량"].
Proof.
  unfold calorie_plan.
  destruct (Qgt_bool bmi (target_bmi + 1));
    [| destruct (Qlt_bool bmi (target_bmi - 1))]; simpl;
    (split; [lra | rewrite !elem_of_cons; tauto]).
Qed.

(** X4.  With an activity taken from the select box the calorie analysis
    never fails: the tdee lies between 1.2 and 1.725 times a bmr that is
    not negative, the recommended calories lie between [tdee - 500] and
    [tdee + 300], and the plan is one of the three labels.  With any other
    activity it fails with the [KeyError] of the lookup. *)
Theorem calorie_analysis_options (latest_row : row) (age : Q)
    (gender activity : string) (target_bmi : Q) :
  (activity ∈ activity_options ->
     exists tdee recommended_cal plan_type,
       calorie_analysis latest_row age gender activity target_bmi
         = Ok (calc_bmr (row_weight latest_row) (row_height latest_row)
                 age gender,
               tdee, recommended_cal, plan_type) /\
       (0 <= calc_bmr (row_weight latest_row) (row_height latest_row)
               age gender ->
        calc_bmr (row_weight latest_row) (row_height latest_row) age gender
          * 1.2 <= tdee /\
        tdee <= calc_bmr (row_weight latest_row) (row_height latest_row)
                  age gender * 1.725) /\
       tdee - 500 <= recommended_cal <= tdee + 300 /\
       plan_type ∈ ["감량"; "유지"; "증량"]) /\
  (activity ∉ activity_options ->
     calorie_analysis latest_row age gender activity target_bmi
       = Raise (KeyError activity)).
Proof.
  set (bmr := calc_bmr (row_weight latest_row) (row_height latest_row)
                age gender).
  split.
  - intros Hin. apply activity_options_keys in Hin. destruct Hin as [a ->].
    assert (calc_tdee bmr (activity_key a) = Ok (bmr * activity_factor a)) as E
      by (destruct a; reflexivity).
    unfold calorie_analysis. fold bmr. rewrite E.
    pose proof (calorie_plan_range (bmr * activity_factor a)
                  (row_bmi latest_row) target_bmi) as [Hr Hl].
    cbn [mbind result_bind].
    destruct (calorie_plan (bmr * activity_factor a) (row_bmi latest_row)
                target_bmi) as [rec plan].
    eexists _, _, _. split; [reflexivity |].
    split; [| split; [exact Hr | exact Hl]].
    intros Hb. destruct a; simpl; split; nra.
  - intros Hout. unfold calorie_analysis, calc_tdee. fold bmr.
    assert (activity_map !! activity = None) as ->; [| reflexivity].
    apply activity_map_None. intros a Ha. apply Hout.
    apply activity_options_keys. eauto.
Qed.

(** X4 at the first option of the select box. *)
Lemma calorie_analysis_options_witness :
  exists tdee recommended_cal plan_type,
    calorie_analysis (Row 1 "kim" "2024-03-05 09:07" 170 70 24.22 "과체중")
      30 "남성" "거의 없음" 22
      = Ok (calc_bmr 70 170 30 "남성", tdee, recommended_cal, plan_type) /\
    tdee - 500 <= recommended_cal <= tdee + 300.
Proof.
  destruct (calorie_analysis_options
              (Row 1 "kim" "2024-03-05 09:07" 170 70 24.22 "과체중")
              30 "남성" "거의 없음" 22) as (H & _).
  destruct H as (tdee & rec & plan & E & _ & Hr & _).
  - apply list_elem_of_In. simpl. tauto.
  - exists tdee, rec, plan. split; [exact E | exact Hr].
Defined.

(** ** Comments and recommendations against the plan *)






(** ** The table over runs of the page *)

Lemma max_rowid_le (rows : list row) (n : Z) :
  (0 <= n)%Z -> Forall (fun r => (0 < row_id r <= n)%Z) rows ->
  (max_rowid rows <= n)%Z.
Proof.
  intros Hn Hall. induction Hall as [|r rows Hr _ IH]; simpl; lia.
Qed.

Lemma insert_row_ok (d : db) (name date : string) (height weight bmi : Q)
    (status : string) :
  db_ok d ->
  db_ok (insert_row d name date height weight bmi status) /\
  sqlite_sequence (insert_row d name date height weight bmi status)
    = (sqlite_sequence d + 1)%Z /\
  bmi_history (insert_row d name date height weight bmi status)
    = bmi_history d
        ++ [Row (sqlite_sequence d + 1) name date height weight bmi status].
Proof.
  intros (Hnd & Hseq & Hall).
  pose proof (max_rowid_le _ _ Hseq Hall) as Hmax.
  unfold insert_row.
  replace (Z.max (sqlite_sequence d) (max_rowid (bmi_history d)) + 1)%Z
    with (sqlite_sequence d + 1)%Z by lia.
  split; [| split; reflexivity].
  unfold db_ok. simpl. split; [| split; [lia |]].
  - rewrite fmap_app. apply NoDup_app. split; [exact Hnd |].
    split; [| apply NoDup_singleton].
    intros i Hi Hi'. apply list_elem_of_singleton in Hi'. subst i.
    apply list_elem_of_fmap in Hi. destruct Hi as (r & Hr & Hin).
    rewrite Forall_forall in Hall. specialize (Hall r Hin). simpl in Hr. lia.
  - apply Forall_app. split.
    + eapply Forall_impl; [exact Hall |]. simpl. intros r Hr. lia.
    + constructor; [simpl; lia | constructor].
Qed.

Lemma NoDup_fmap_filter {A B : Type} (f : A -> B) (P : A -> Prop)
    `{forall x, Decision (P x)} (l : list A) :
  NoDup (f <$> l) -> NoDup (f <$> filter P l).
Proof.
  induction l as [|a l IH]; [intros; exact (NoDup_nil_2) |].
  rewrite fmap_cons, NoDup_cons. intros [Ha Hl].
  destruct (decide (P a)) as [Hp|Hp].
  - rewrite filter_cons_True by exact Hp. rewrite fmap_cons, NoDup_cons.
    split; [| now apply IH].
    intros Hin. apply Ha.
    apply list_elem_of_fmap in Hin. destruct Hin as (x & -> & Hx).
    apply list_elem_of_filter in Hx. apply list_elem_of_fmap_2. tauto.
  - rewrite filter_cons_False by exact Hp. now apply IH.
Qed.

Lemma delete_where_id_in_ok (ids : list Z) (d : db) :
  db_ok d -> db_ok (delete_where_id_in ids d).
Proof.
  intros (Hnd & Hseq & Hall). unfold db_ok, delete_where_id_in. simpl.
  split; [now apply NoDup_fmap_filter |]. split; [exact Hseq |].
  rewrite Forall_forall in *. intros r Hr.
  apply list_elem_of_filter in Hr. apply Hall. tauto.
Qed.

Lemma on_delete_true (ids : list Z) (d : db) :
  (on_delete ids true d).1 = delete_where_id_in ids d.
Proof.
  destruct ids as [|i ids]; [| reflexivity]. simpl. symmetry.
  apply delete_where_id_in_absent. intros r _. apply not_elem_of_nil.
Qed.

Lemma on_save_click_cases (name : string) (height weight : Q) (now : datetime)
    (d : db) :
  (exists text,
     on_save_click name height weight now d = Ok (d, sidebar_error text)) \/
  (name <> "" /\ 0 < height /\
   on_save_click name height weight now d =
     Ok (insert_row d name (strftime now) height weight
           (py_round (weight / (height / 100) ^ 2) 2)
           (bmi_status (weight / (height / 100) ^ 2)),
         sidebar_success (weight / (height / 100) ^ 2))).
Proof.
  destruct (String.eqb_spec name "") as [->|Hn].
  { left. eexists. apply on_save_click_no_name. }
  destruct (Qlt_le_dec 0 height) as [Hh|Hh].
  - right. split; [exact Hn |]. split; [exact Hh |].
    now apply on_save_click_accepted.
  - left. eexists. now apply on_save_click_no_height.
Qed.

(** One run keeps the table well-formed, never lowers the counter, and
    every row it leaves is an old row or has an id above the old counter. *)
Lemma run_action_step (a : action) (d : db) :
  db_ok d ->
  db_ok (run_action a d) /\
  (sqlite_sequence d <= sqlite_sequence (run_action a d))%Z /\
  (forall r, r ∈ bmi_history (run_action a d) ->
     r ∈ bmi_history d \/ (sqlite_sequence d < row_id r)%Z).
Proof.
  intros Hok. destruct a as [name height weight now | ids].
  - simpl.
    destruct (on_save_click_cases name height weight now d)
      as [[text ->]|(_ & _ & ->)].
    + split; [exact Hok |]. split; [lia | auto].
    + destruct (insert_row_ok d name (strftime now) height weight
        (py_round (weight / (height / 100) ^ 2) 2)
        (bmi_status (weight / (height / 100) ^ 2)) Hok) as (Hok' & Hs & Hh).
      split; [exact Hok' |]. split; [lia |].
      intros r Hr. rewrite Hh in Hr. apply elem_of_app in Hr.
      destruct Hr as [Hr|Hr]; [now left |].
      apply list_elem_of_singleton in Hr. subst r. right. simpl. lia.
  - cbn [run_action]. rewrite on_delete_true.
    split; [now apply delete_where_id_in_ok |]. split; [simpl; lia |].
    intros r Hr. left. unfold delete_where_id_in in Hr. simpl in Hr.
    apply list_elem_of_filter in Hr. tauto.
Qed.

Lemma run_actions_steps (actions : list action) (d : db) :
  db_ok d ->
  db_ok (run_actions actions d) /\
  (sqlite_sequence d <= sqlite_sequence (run_actions actions d))%Z /\
  (forall r, r ∈ bmi_history (run_actions actions d) ->
     r ∈ bmi_history d \/ (sqlite_sequence d < row_id r)%Z).
Proof.
  revert d. induction actions as [|a actions IH]; intros d Hok.
  { simpl. split; [exact Hok |]. split; [lia | auto]. }
  destruct (run_action_step a d Hok) as (Hok1 & Hs1 & Hr1).
  destruct (IH (run_action a d) Hok1) as (Hok2 & Hs2 & Hr2).
  change (run_actions (a :: actions) d)
    with (run_actions actions (run_action a d)).
  split; [exact Hok2 |]. split; [lia |].
  intros r Hr. destruct (Hr2 r Hr) as [Hin|Hlt]; [| right; lia].
  destruct (Hr1 r Hin) as [Hin'|Hlt]; [now left | right; lia].
Qed.

Lemma db_ok_same_id (d : db) (r1 r2 : row) :
  db_ok d -> r1 ∈ bmi_history d -> r2 ∈ bmi_history d ->
  row_id r1 = row_id r2 -> r1 = r2.
Proof.
  intros (Hnd & _ & _). induction (bmi_history d) as [|a l IH];
    intros H1 H2 Hid.
  { apply elem_of_nil in H1. destruct H1. }
  rewrite fmap_cons, NoDup_cons in Hnd. destruct Hnd as [Ha Hl].
  apply elem_of_cons in H1, H2.
  destruct H1 as [->|H1], H2 as [->|H2]; auto.
  - exfalso. apply Ha. rewrite Hid. now apply list_elem_of_fmap_2.
  - exfalso. apply Ha. rewrite <- Hid. now apply list_elem_of_fmap_2.
Qed.

(** X7.  Over any sequence of saves and deletes, from a table whose ids
    are distinct and at most the counter: the ids stay distinct and at most
    the counter, the counter never falls, a row of the table that carries
    an id of an old row is that old row unchanged, and every other row has
    an id above the old counter, so that no id is ever handed out twice. *)
Theorem rows_never_rewritten (actions : list action) (d : db) :
  db_ok d ->
  db_ok (run_actions actions d) /\
  (sqlite_sequence d <= sqlite_sequence (run_actions actions d))%Z /\
  (forall r, r ∈ bmi_history (run_actions actions d) ->
     r ∈ bmi_history d \/ (sqlite_sequence d < row_id r)%Z) /\
  (forall r r0,
     r ∈ bmi_history (run_actions actions d) -> r0 ∈ bmi_history d ->
     row_id r = row_id r0 -> r = r0).
Proof.
  intros Hok.
  destruct (run_actions_steps actions d Hok) as (Hok' & Hs & Hr).
  split; [exact Hok' |]. split; [exact Hs |]. split; [exact Hr |].
  intros r r0 Hin Hin0 Hid.
  destruct (Hr r Hin) as [Hold|Hnew].
  - now apply (db_ok_same_id d).
  - destruct Hok as (_ & _ & Hall). rewrite Forall_forall in Hall.
    specialize (Hall r0 Hin0). lia.
Qed.

(** X7 at a save, the delete of its row, and a second save. *)
Lemma rows_never_rewritten_witness :
  db_ok (run_actions
           [save_click "kim" 170 70 (Datetime 2024 3 5 9 7 30);
            delete_click [1%Z];
            save_click "kim" 170 60 (Datetime 2024 4 1 8 0 0)]
           (Db [] 0)).
Proof.
  apply (rows_never_rewritten
           [save_click "kim" 170 70 (Datetime 2024 3 5 9 7 30);
            delete_click [1%Z];
            save_click "kim" 170 60 (Datetime 2024 4 1 8 0 0)]
           (Db [] 0)).
  unfold db_ok. simpl. split; [constructor |]. split; [lia | constructor].
Defined.

Example id_not_reused :
  run_actions
    [save_click "kim" 170 70 (Datetime 2024 3 5 9 7 30);
     delete_click [1%Z];
     save_click "kim" 170 60 (Datetime 2024 4 1 8 0 0)]
    (Db [] 0)
  = Db [Row 2 "kim" "2024-04-01 08:00" 170 60 20.76 "정상"] 2.
Proof. reflexivity. Qed.

Lemma filter_ext_in {A : Type} (P1 P2 : A -> Prop)
    `{forall x, Decision (P1 x)} `{forall x, Decision (P2 x)} (l : list A) :
  (forall x, x ∈ l -> (P1 x <-> P2 x)) -> filter P1 l = filter P2 l.
Proof.
  induction l as [|a l IH]; intros Hext; [reflexivity |].
  assert (filter P1 l = filter P2 l) as E.
  { apply IH. intros x Hx. apply Hext. now right. }
  destruct (decide (P1 a)) as [Hp|Hp].
  - rewrite !filter_cons_True; [now rewrite E | | exact Hp].
    apply (Hext a); [left | exact Hp].
  - rewrite !filter_cons_False; [exact E | | exact Hp].
    intros Hp2. apply Hp. apply (Hext a); [left | exact Hp2].
Qed.



(** X9.  The ids gathered from the ticked rows of the selected user's
    frame delete exactly the rows of that user whose box is ticked: every
    row of another name, and every row whose box is not ticked, stays. *)
Theorem delete_ticked_rows (d : db) (df u : list row) (selected_name : string)
    (checked : Z -> bool) :
  db_ok d -> load_data_returns d df -> user_df_returns df selected_name u ->
  bmi_history (on_delete (delete_ids u checked) true d).1
    = filter (fun r => ~ (row_name r = selected_name /\ checked (row_id r) = true))
        (bmi_history d) /\
  (forall r, r ∈ bmi_history d -> row_name r <> selected_name ->
     r ∈ bmi_history (on_delete (delete_ids u checked) true d).1).
Proof.
  intros Hok [Hp _] [Hu _].
  assert (forall r, r ∈ bmi_history d ->
            (row_id r ∉ delete_ids u checked <->
             ~ (row_name r = selected_name /\ checked (row_id r) = true)))
    as Hiff.
  { intros r Hr. unfold delete_ids. split.
    - intros Hnot [Hname Hchk]. apply Hnot.
      apply list_elem_of_fmap_2. apply list_elem_of_filter.
      split; [exact Hchk |]. rewrite Hu. apply list_elem_of_filter.
      split; [exact Hname | now rewrite Hp].
    - intros Hnot Hin. apply Hnot.
      apply list_elem_of_fmap in Hin. destruct Hin as (r' & Hid & Hr').
      apply list_elem_of_filter in Hr'. destruct Hr' as [Hchk Hr'].
      rewrite Hu in Hr'. apply list_elem_of_filter in Hr'.
      destruct Hr' as [Hname Hr']. rewrite Hp in Hr'.
      assert (r = r') as -> by now apply (db_ok_same_id d).
      split; assumption. }
  assert (bmi_history (on_delete (delete_ids u checked) true d).1
    = filter (fun r => ~ (row_name r = selected_name /\ checked (row_id r) = true))
        (bmi_history d)) as E.
  { rewrite on_delete_true. unfold delete_where_id_in. simpl.
    now apply filter_ext_in. }
  split; [exact E |].
  intros r Hr Hname. rewrite E. apply list_elem_of_filter.
  split; [| exact Hr]. intros [Hn _]. contradiction.
Qed.

(** X9 at two users, with the box of the row of id 1 ticked. *)
Lemma delete_ticked_rows_witness :
  bmi_history
    (on_delete
       (delete_ids [Row 1 "kim" "2024-03-05 09:07" 170 70 24.22 "과체중"]
          (Z.eqb 1))
       true
       (Db [Row 1 "kim" "2024-03-05 09:07" 170 70 24.22 "과체중";
            Row 2 "lee" "2024-04-01 08:00" 170 60 20.76 "정상"] 2)).1
  = filter (fun r => ~ (row_name r = "kim" /\ Z.eqb 1 (row_id r) = true))
      [Row 1 "kim" "2024-03-05 09:07" 170 70 24.22 "과체중";
       Row 2 "lee" "2024-04-01 08:00" 170 60 20.76 "정상"].
Proof.
  apply (delete_ticked_rows
    (Db [Row 1 "kim" "2024-03-05 09:07" 170 70 24.22 "과체중";
         Row 2 "lee" "2024-04-01 08:00" 170 60 20.76 "정상"] 2)
    [Row 1 "kim" "2024-03-05 09:07" 170 70 24.22 "과체중";
     Row 2 "lee" "2024-04-01 08:00" 170 60 20.76 "정상"]
    [Row 1 "kim" "2024-03-05 09:07" 170 70 24.22 "과체중"] "kim" (Z.eqb 1)).
  - unfold db_ok. simpl. split; [| split; [lia |]].
    + apply NoDup_cons. split; [| apply NoDup_singleton].
      intros H. apply list_elem_of_singleton in H. discriminate H.
    + repeat constructor; simpl; lia.
  - split; [reflexivity |]. repeat constructor.
  - split; [reflexivity |]. repeat constructor.
Defined.

(** ** The user selector and the indicators *)

#[global] Instance text_le_total : Total text_le.
Proof. intros s1 s2. apply String.leb_total. Qed.

Lemma name_options_elem (df : list row) (n : string) :
  n ∈ name_options df <-> exists r, r ∈ df /\ row_name r = n.
Proof.
  unfold name_options. rewrite merge_sort_Permutation.
  rewrite elem_of_remove_dups, list_elem_of_fmap. split.
  - intros (r & -> & Hr). eauto.
  - intros (r & Hr & <-). eauto.
Qed.

(** X10.  The select box offers each name of the frame once, in ascending
    order, and offers a name only if the frame has a row of it; so the
    frame of the selected user always has a row, and [latest] is defined.
    A frame with a row gives a select box with an option. *)
Theorem selector_names (df : list row) :
  NoDup (name_options df) /\
  Sorted text_le (name_options df) /\
  (forall n, n ∈ name_options df <-> exists r, r ∈ df /\ row_name r = n) /\
  (forall n u, n ∈ name_options df -> user_df_returns df n u ->
     u <> [] /\ exists r, latest u = Some r /\ r ∈ df /\ row_name r = n) /\
  (df <> [] -> name_options df <> []).
Proof.
  split; [| split; [| split; [apply name_options_elem | split]]].
  - unfold name_options. rewrite merge_sort_Permutation.
    apply NoDup_remove_dups.
  - unfold name_options. apply (Sorted_merge_sort text_le).
  - intros n u Hn [Hu _]. apply name_options_elem in Hn.
    destruct Hn as (r & Hr & Hname).
    assert (r ∈ u) as Hru.
    { rewrite Hu. apply list_elem_of_filter. tauto. }
    assert (u <> []) as Hne.
    { intros ->. apply elem_of_nil in Hru. exact Hru. }
    split; [exact Hne |].
    apply last_is_Some in Hne. destruct Hne as [x Hx].
    exists x. split; [exact Hx |].
    apply last_Some_elem_of in Hx. rewrite Hu in Hx.
    apply list_elem_of_filter in Hx. tauto.
  - intros Hne Hnil. destruct df as [|r df]; [congruence |].
    assert (row_name r ∈ name_options (r :: df)) as Hin.
    { apply name_options_elem. exists r. split; [left | reflexivity]. }
    rewrite Hnil in Hin. apply elem_of_nil in Hin. exact Hin.
Qed.

(** X10 at a frame of two users. *)
Lemma selector_names_witness :
  [Row 1 "lee" "2024-03-05 09:07" 170 70 24.22 "과체중"] <> [] /\
  exists r,
    latest [Row 1 "lee" "2024-03-05 09:07" 170 70 24.22 "과체중"] = Some r /\
    r ∈ [Row 1 "lee" "2024-03-05 09:07" 170 70 24.22 "과체중";
         Row 2 "kim" "2024-04-01 08:00" 170 60 20.76 "정상"] /\
    row_name r = "lee".
Proof.
  destruct (selector_names
    [Row 1 "lee" "2024-03-05 09:07" 170 70 24.22 "과체중";
     Row 2 "kim" "2024-04-01 08:00" 170 60 20.76 "정상"])
    as (_ & _ & _ & H & _).
  apply (H "lee" [Row 1 "lee" "2024-03-05 09:07" 170 70 24.22 "과체중"]).
  - apply list_elem_of_In. simpl. tauto.
  - split; [reflexivity | repeat constructor].
Defined.

Lemma bmi_max_fold (m : Q) (u : list row) :
  let M := foldl (fun m r' => np_maximum m (row_bmi r')) m u in
  m <= M /\ (forall r, r ∈ u -> row_bmi r <= M) /\
  (M = m \/ exists r, r ∈ u /\ row_bmi r = M).
Proof.
  revert m. induction u as [|a u IH]; intros m; simpl.
  { split; [lra |]. split; [| now left].
    intros r Hr. apply elem_of_nil in Hr. destruct Hr. }
  destruct (IH (np_maximum m (row_bmi a))) as (H1 & H2 & H3).
  assert (m <= np_maximum m (row_bmi a) /\
          row_bmi a <= np_maximum m (row_bmi a) /\
          (np_maximum m (row_bmi a) = m \/
           np_maximum m (row_bmi a) = row_bmi a)) as (G1 & G2 & G3).
  { unfold np_maximum. destruct (Qle_bool m (row_bmi a)) eqn:E;
      order_facts; repeat split; auto; lra. }
  split; [lra |]. split.
  - intros r Hr. apply elem_of_cons in Hr. destruct Hr as [->|Hr]; [lra | auto].
  - destruct H3 as [H3|(r & Hr & H3)].
    + destruct G3 as [G3|G3]; [left; congruence |].
      right. exists a. split; [left | congruence].
    + right. exists r. split; [now right | exact H3].
Qed.

Lemma bmi_min_fold (m : Q) (u : list row) :
  let M := foldl (fun m r' => np_minimum m (row_bmi r')) m u in
  M <= m /\ (forall r, r ∈ u -> M <= row_bmi r) /\
  (M = m \/ exists r, r ∈ u /\ row_bmi r = M).
Proof.
  revert m. induction u as [|a u IH]; intros m; simpl.
  { split; [lra |]. split; [| now left].
    intros r Hr. apply elem_of_nil in Hr. destruct Hr. }
  destruct (IH (np_minimum m (row_bmi a))) as (H1 & H2 & H3).
  assert (np_minimum m (row_bmi a) <= m /\
          np_minimum m (row_bmi a) <= row_bmi a /\
          (np_minimum m (row_bmi a) = m \/
           np_minimum m (row_bmi a) = row_bmi a)) as (G1 & G2 & G3).
  { unfold np_minimum. destruct (Qle_bool m (row_bmi a)) eqn:E;
      order_facts; repeat split; auto; lra. }
  split; [lra |]. split.
  - intros r Hr. apply elem_of_cons in Hr. destruct Hr as [->|Hr]; [lra | auto].
  - destruct H3 as [H3|(r & Hr & H3)].
    + destruct G3 as [G3|G3]; [left; congruence |].
      right. exists a. split; [left | congruence].
    + right. exists r. split; [now right | exact H3].
Qed.

(** X11.  On a frame with a row the highest and the lowest bmi shown are
    bmis of rows of the frame, and the bmi of every row, that of the latest
    row too, lies between them. *)
Theorem bmi_extremes (u : list row) :
  u <> [] ->
  exists lo hi,
    bmi_min u = Some lo /\ bmi_max u = Some hi /\
    (exists r, r ∈ u /\ row_bmi r = lo) /\
    (exists r, r ∈ u /\ row_bmi r = hi) /\
    (forall r, r ∈ u -> lo <= row_bmi r <= hi) /\
    (exists r, latest u = Some r /\ lo <= row_bmi r <= hi).
Proof.
  intros Hne. destruct u as [|a u]; [congruence |].
  destruct (bmi_max_fold (row_bmi a) u) as (M1 & M2 & M3).
  destruct (bmi_min_fold (row_bmi a) u) as (L1 & L2 & L3).
  simpl in *.
  eexists _, _. split; [reflexivity |]. split; [reflexivity |].
  assert (forall r, r ∈ a :: u ->
    foldl (fun m r' => np_minimum m (row_bmi r')) (row_bmi a) u <= row_bmi r
    <= foldl (fun m r' => np_maximum m (row_bmi r')) (row_bmi a) u) as Hall.
  { intros r Hr. apply elem_of_cons in Hr.
    destruct Hr as [->|Hr]; [split; assumption | split; auto]. }
  split; [| split; [| split; [exact Hall |]]].
  - destruct L3 as [L3|(r & Hr & L3)].
    + exists a. split; [left | now symmetry].
    + exists r. split; [now right | exact L3].
  - destruct M3 as [M3|(r & Hr & M3)].
    + exists a. split; [left | now symmetry].
    + exists r. split; [now right | exact M3].
  - assert (a :: u <> []) as Hne' by discriminate.
    apply last_is_Some in Hne'. destruct Hne' as [x Hx].
    exists x. split; [exact Hx |]. apply Hall.
    now apply last_Some_elem_of.
Qed.

(** X11 at a frame of three rows. *)
Lemma bmi_extremes_witness :
  exists lo hi,
    bmi_min [Row 1 "kim" "2024-01-05 09:07" 170 70 24.22 "과체중";
             Row 2 "kim" "2024-02-01 08:00" 170 60 20.76 "정상";
             Row 3 "kim" "2024-03-01 08:00" 170 65 22.49 "정상"] = Some lo /\
    bmi_max [Row 1 "kim" "2024-01-05 09:07" 170 70 24.22 "과체중";
             Row 2 "kim" "2024-02-01 08:00" 170 60 20.76 "정상";
             Row 3 "kim" "2024-03-01 08:00" 170 65 22.49 "정상"] = Some hi /\
    lo = 20.76 /\ hi = 24.22.
Proof.
  destruct (bmi_extremes
    [Row 1 "kim" "2024-01-05 09:07" 170 70 24.22 "과체중";
     Row 2 "kim" "2024-02-01 08:00" 170 60 20.76 "정상";
     Row 3 "kim" "2024-03-01 08:00" 170 65 22.49 "정상"])
    as (lo & hi & Hlo & Hhi & _); [discriminate |].
  exists lo, hi. split; [exact Hlo |]. split; [exact Hhi |].
  split; [injection Hlo as <- | injection Hhi as <-]; reflexivity.
Defined.

(** ** The newest row *)




(** ** Rounding of the stored bmi *)

Lemma round_half_even_Z (k : Z) : round_half_even (inject_Z k) = k.
Proof.
  unfold round_half_even. rewrite Qfloor_Z.
  assert (Qlt_bool (inject_Z k - inject_Z k) (1 # 2) = true) as ->;
    [| reflexivity].
  apply Qlt_bool_iff. lra.
Qed.

Lemma round_half_even_mono (x y : Q) :
  x <= y -> (round_half_even x <= round_half_even y)%Z.
Proof.
  intros Hxy.
  pose proof (Qfloor_le x) as Hx1. pose proof (Qlt_floor x) as Hx2.
  pose proof (Qfloor_le y) as Hy1. pose proof (Qlt_floor y) as Hy2.
  pose proof (Qfloor_resp_le x y Hxy) as Hfg.
  rewrite inject_Z_plus in Hx2, Hy2. change (inject_Z 1) with 1 in Hx2, Hy2.
  unfold round_half_even.
  destruct (Z.eq_dec (Qfloor x) (Qfloor y)) as [Heq|Hneq].
  - rewrite <- Heq in *.
    destruct (Qlt_bool (x - inject_Z (Qfloor x)) (1 # 2)) eqn:A1,
      (Qgt_bool (x - inject_Z (Qfloor x)) (1 # 2)) eqn:A2,
      (Qlt_bool (y - inject_Z (Qfloor x)) (1 # 2)) eqn:B1,
      (Qgt_bool (y - inject_Z (Qfloor x)) (1 # 2)) eqn:B2,
      (Z.even (Qfloor x));
      order_facts; try lia; exfalso; lra.
  - destruct (Qlt_bool (x - inject_Z (Qfloor x)) (1 # 2)),
      (Qgt_bool (x - inject_Z (Qfloor x)) (1 # 2)),
      (Qlt_bool (y - inject_Z (Qfloor y)) (1 # 2)),
      (Qgt_bool (y - inject_Z (Qfloor y)) (1 # 2)),
      (Z.even (Qfloor x)), (Z.even (Qfloor y)); lia.
Qed.

(** X13.  Rounding to 2 decimal places keeps the order of the values,
    leaves a rounded value as it is when it is rounded again, and gives a
    value that is not negative from one that is not negative. *)
Theorem py_round_2_stable (x y : Q) :
  py_round (py_round x 2) 2 = py_round x 2 /\
  (x <= y -> py_round x 2 <= py_round y 2) /\
  (0 <= x -> 0 <= py_round x 2).
Proof.
  assert (forall a b, a <= b -> py_round a 2 <= py_round b 2) as Hmono.
  { intros a b Hab. unfold py_round. change (10 ^ Z.of_nat 2)%Z with 100%Z.
    unfold Qdiv. apply Qmult_le_compat_r; [| discriminate].
    rewrite <- Zle_Qle. apply round_half_even_mono.
    apply Qmult_le_compat_r; [exact Hab | discriminate]. }
  split; [| split; [apply Hmono |]].
  - assert (forall z, py_round z 2
              = inject_Z (round_half_even (z * inject_Z 100)) / inject_Z 100)
      as Hunfold by reflexivity.
    assert (round_half_even (py_round x 2 * inject_Z 100)
              = round_half_even (x * inject_Z 100)) as E.
    { transitivity
        (round_half_even (inject_Z (round_half_even (x * inject_Z 100))));
        [| apply round_half_even_Z].
      apply round_half_even_comp. rewrite (Hunfold x).
      change (inject_Z 100) with 100. field. }
    rewrite (Hunfold (py_round x 2)), E. symmetry. apply Hunfold.
  - intros Hx. apply (Qle_trans _ (py_round 0 2)); [discriminate |].
    apply (Hmono 0 x Hx).
Qed.

(** X13 at 24.2249 and 24.225. *)
Lemma py_round_2_stable_witness : py_round 24.2249 2 <= py_round 24.225 2.
Proof.
  destruct (py_round_2_stable 24.2249 24.225) as (_ & H & _).
  apply H. apply Qle_bool_iff. reflexivity.
Defined.

(** ** The date text *)

Lemma lex_Eq_inv (c1 c2 : comparison) : lex c1 c2 = Eq -> c1 = Eq /\ c2 = Eq.
Proof. destruct c1; simpl; intros H; try discriminate H; auto. Qed.

(** X14.  The date text has 16 characters, and for instants with a year
    of four digits it determines the instant down to the minute: two
    instants with the same text agree in year, month, day, hour and
    minute. *)
Theorem strftime_injective (t1 t2 : datetime) :
  valid_datetime t1 -> valid_datetime t2 ->
  String.length (strftime t1) = 16%nat /\
  (strftime t1 = strftime t2 ->
     year t1 = year t2 /\ month t1 = month t2 /\ day t1 = day t2 /\
     hour t1 = hour t2 /\ minute t1 = minute t2).
Proof.
  intros V1 V2. split; [reflexivity |].
  intros E. pose proof (strftime_compare t1 t2 V1 V2) as Hc.
  rewrite E, compare_refl in Hc. symmetry in Hc.
  unfold minute_compare in Hc.
  apply lex_Eq_inv in Hc. destruct Hc as [Hy Hc].
  apply lex_Eq_inv in Hc. destruct Hc as [Hm Hc].
  apply lex_Eq_inv in Hc. destruct Hc as [Hd Hc].
  apply lex_Eq_inv in Hc. destruct Hc as [Hh Hi].
  apply Z.compare_eq in Hy, Hm, Hd, Hh, Hi. auto.
Qed.

(** X14 at two instants of one minute. *)
Lemma strftime_injective_witness :
  String.length (strftime (Datetime 2024 3 5 9 7 10)) = 16%nat /\
  (strftime (Datetime 2024 3 5 9 7 10) = strftime (Datetime 2024 3 5 9 7 30) ->
   (2024 = 2024 /\ 3 = 3 /\ 5 = 5 /\ 9 = 9 /\ 7 = 7)%Z).
Proof.
  apply (strftime_injective (Datetime 2024 3 5 9 7 10)
           (Datetime 2024 3 5 9 7 30));
    unfold valid_datetime; simpl; lia.
Defined.

(** ** The forecast *)

(** X15.  The forecast has one value for each of the years 2020 to 2024;
    each is the value of the fitted line where that is not negative and 0
    where it is, so no forecast is negative; and with a slope that is not
    positive the forecasts never rise from one year to the next, with a
    slope that is not negative they never fall. *)
Theorem future_preds_clamped (slope intercept : Q) :
  Forall2
    (fun y p =>
       0 <= p /\
       (0 <= slope * y + intercept -> p = slope * y + intercept) /\
       (slope * y + intercept <= 0 -> p == 0))
    future_years (future_preds slope intercept) /\
  (slope <= 0 -> Sorted (flip Qle) (future_preds slope intercept)) /\
  (0 <= slope -> Sorted Qle (future_preds slope intercept)).
Proof.
  assert (forall v, 0 <= np_maximum 0 v /\
                    (0 <= v -> np_maximum 0 v = v) /\
                    (v <= 0 -> np_maximum 0 v == 0)) as Hmax.
  { intros v. unfold np_maximum. destruct (Qle_bool 0 v) eqn:E; order_facts.
    - split; [exact E |]. split; [reflexivity | intros; lra].
    - split; [lra |]. split; [intros; lra | reflexivity]. }
  assert (forall a b, a <= b -> np_maximum 0 a <= np_maximum 0 b) as Hmono.
  { intros a b Hab. unfold np_maximum.
    destruct (Qle_bool 0 a) eqn:Ea, (Qle_bool 0 b) eqn:Eb; order_facts; lra. }
  unfold future_preds, future_years. cbn [fmap list_fmap].
  split; [repeat constructor; apply Hmax |].
  split; intros Hs; repeat constructor; unfold flip; apply Hmono; lra.
Qed.

(** X15 at a falling line that crosses 0 between 2021 and 2022. *)
Lemma future_preds_clamped_witness :
  Sorted (flip Qle) (future_preds (-3) 6063).
Proof.
  destruct (future_preds_clamped (-3) 6063) as (_ & H & _).
  apply H. apply Qle_bool_iff. reflexivity.
Defined.

Example future_preds_falling : future_preds (-3) 6063 = [3; 0; 0; 0; 0].
Proof. reflexivity. Qed.

(** ** A saved row read back *)




(** ** The stored status against the stored bmi *)



